(** * The DPSL diagnostics manager, embedded and verified

    Source files:
    - [src/diagnostics_manager.js]: the manager with a capability probe in
      front of every [chrome.os.diagnostics] call (module [Checked] below);
    - the revision of the same file that has no probe, and fewer methods
      (module [Unchecked] below).

    The code is a layer of [async] methods over the host object [chrome].
    It is embedded as a state-and-exception monad:
    - the state holds the log of calls made into the host API, in order, and
      the store of [Routine] objects (one cell per object: its [id] field);
    - a JavaScript [throw] is the [Throw] outcome of a computation;
    - a promise is represented by the way it eventually settles (fulfilled
      with a value, rejected with a reason, or never settled); none of the
      methods awaits, so every host call happens while the method body runs
      and the order of the log is the order of the calls;
    - the host answers each call through [backend], a function of the calls
      made so far and of the call itself, so a host function may answer
      differently each time it is called.

    Host functions hand out data and native promises.  Functions are members
    of the host's namespaces only, so an object that reaches this code as
    data never has a callable [then]. *)

From Stdlib Require Import String List ZArith Bool Lia.
Import ListNotations.
Open Scope string_scope.
Open Scope list_scope.

Set Warnings "-register-all".

(** ** JavaScript values *)

Module Js.

(** Data values.  [VNum] holds the integer-valued numbers (routine
    identifiers are integers), [VNaN] the one other falsy number.  A
    [VRoutine] is a reference to a [Routine] object in the store. *)
Inductive value : Type :=
  | VUndefined
  | VNull
  | VBool (b : bool)
  | VNum (n : Z)
  | VNaN
  | VStr (s : string)
  | VObject (fields : list (string * value))
  | VError (message : string)
  | VTypeError
  | VRoutine (addr : nat)
  | VPromise (st : settlement)
with settlement : Type :=
  | Fulfilled (v : value)
  | Rejected (reason : value)
  | Pending.

(** What the host exposes: data, functions, and namespaces of both. *)
Inductive hostval : Type :=
  | HData (v : value)
  | HFunction
  | HNamespace (members : list (string * hostval)).

Fixpoint assoc {A : Type} (key : string) (l : list (string * A)) : option A :=
  match l with
  | [] => None
  | (k, a) :: rest => if String.eqb key k then Some a else assoc key rest
  end.

(** JavaScript truthiness. *)
Definition truthy (v : value) : bool :=
  match v with
  | VUndefined | VNull | VNaN => false
  | VBool b => b
  | VNum n => negb (Z.eqb n 0)
  | VStr s => negb (String.eqb s "")
  | _ => true
  end.

Definition htruthy (h : hostval) : bool :=
  match h with
  | HData v => truthy v
  | HFunction | HNamespace _ => true
  end.

(** The [typeof] operator. *)
Definition typeof (v : value) : string :=
  match v with
  | VUndefined => "undefined"
  | VBool _ => "boolean"
  | VNum _ | VNaN => "number"
  | VStr _ => "string"
  | _ => "object"
  end.

Definition htypeof (h : hostval) : string :=
  match h with
  | HData v => typeof v
  | HFunction => "function"
  | HNamespace _ => "object"
  end.

(** One call into the host API: the entry point of [chrome.os.diagnostics]
    that was invoked and the arguments it received. *)
Record call : Type := mkCall { entry : string; args : list value }.

(** How a host function answers a call: it throws, or it returns a value
    (a promise, for a well-behaved host). *)
Inductive host_result : Type :=
  | Returns (v : value)
  | Raises (e : value).

(** The host: the members of the global [chrome], and the behaviour of
    the functions behind [chrome.os.diagnostics]. *)
Record host : Type := mkHost {
  chrome : list (string * hostval);
  backend : list call -> call -> host_result
}.

(** Program state: the calls made into the host so far, oldest first, and
    the [id] field of every [Routine] object created so far. *)
Record state : Type := mkState { trace : list call; heap : list value }.

Inductive result (A : Type) : Type :=
  | Normal (a : A)
  | Throw (e : value).
Arguments Normal {A} a.
Arguments Throw {A} e.

Definition M (A : Type) : Type := state -> state * result A.

Definition ret {A : Type} (a : A) : M A := fun s => (s, Normal a).

Definition throw {A : Type} (e : value) : M A := fun s => (s, Throw e).

Definition bind {A B : Type} (m : M A) (k : A -> M B) : M B :=
  fun s =>
    match m s with
    | (s', Normal a) => k a s'
    | (s', Throw e) => (s', Throw e)
    end.

(** Promise resolution: resolving with a promise adopts its settlement,
    resolving with anything else fulfils. *)
Definition resolve (v : value) : settlement :=
  match v with
  | VPromise st => st
  | _ => Fulfilled v
  end.

(** An [async] function: the body runs at once; what it returns resolves
    the promise, what it throws rejects it.  The call itself never throws. *)
Definition async (body : M value) : M value :=
  fun s =>
    match body s with
    | (s', Normal v) => (s', Normal (VPromise (resolve v)))
    | (s', Throw e) => (s', Normal (VPromise (Rejected e)))
    end.

(** [p.then(onFulfilled)], with no rejection handler.  On a value that is
    not a promise the method lookup or the call fails with a TypeError. *)
Definition then_ (p : value) (onFulfilled : value -> M value) : M value :=
  match p with
  | VPromise (Fulfilled v) =>
      fun s =>
        match onFulfilled v s with
        | (s', Normal r) => (s', Normal (VPromise (resolve r)))
        | (s', Throw e) => (s', Normal (VPromise (Rejected e)))
        end
  | VPromise (Rejected e) => ret (VPromise (Rejected e))
  | VPromise Pending => ret (VPromise Pending)
  | _ => throw VTypeError
  end.

(** [Promise.reject(reason)]. *)
Definition Promise_reject (reason : value) : value := VPromise (Rejected reason).

(** Property read [h.name] (or [h[name]]) on a host value. *)
Definition hget (h : hostval) (name : string) : M hostval :=
  match h with
  | HData VUndefined | HData VNull => throw VTypeError
  | HData (VObject fields) =>
      ret (HData (match assoc name fields with Some v => v | None => VUndefined end))
  | HData _ => ret (HData VUndefined)
  | HFunction => ret (HData VUndefined)
  | HNamespace members =>
      ret (match assoc name members with Some m => m | None => HData VUndefined end)
  end.

(** [response.id] on a data value; the [id] of a [Routine] is read from
    the store. *)
Definition get_id (v : value) : M value :=
  match v with
  | VUndefined | VNull => throw VTypeError
  | VObject fields =>
      ret (match assoc "id" fields with Some x => x | None => VUndefined end)
  | VRoutine addr => fun s => (s, Normal (nth addr (heap s) VUndefined))
  | _ => ret VUndefined
  end.

Section WithHost.

Variable h : host.

(** Calling [f(args)] where [f] was read from [chrome.os.diagnostics] under
    [name]: a TypeError unless [f] is a function; otherwise the call is
    logged and the host answers. *)
Definition hcall (f : hostval) (name : string) (arguments : list value) : M value :=
  match f with
  | HFunction =>
      fun s =>
        let c := mkCall name arguments in
        let s' := mkState (trace s ++ [c]) (heap s) in
        match backend h (trace s) c with
        | Returns v => (s', Normal v)
        | Raises e => (s', Throw e)
        end
  | _ => throw VTypeError
  end.

(** The expression [chrome.os]. *)
Definition chrome_os : M hostval := hget (HNamespace (chrome h)) "os".

(** The expression [chrome.os.diagnostics]. *)
Definition chrome_os_diagnostics : M hostval :=
  bind chrome_os (fun os => hget os "diagnostics").

(** The expression [chrome.os.diagnostics[name]]. *)
Definition chrome_os_diagnostics_at (name : string) : M hostval :=
  bind chrome_os_diagnostics (fun diagnostics => hget diagnostics name).

(** The expression [chrome.os.diagnostics.name(arguments)]. *)
Definition chrome_os_diagnostics_call (name : string) (arguments : list value)
  : M value :=
  bind (chrome_os_diagnostics_at name) (fun f => hcall f name arguments).

End WithHost.

(** The operator [a && b]. *)
Definition and_ (a b : M hostval) : M hostval :=
  bind a (fun x => if htruthy x then b else ret x).

(** [new Routine(id)]: the constructor stores [id] in a fresh object. *)
Definition new_Routine (id : value) : M value :=
  fun s => (mkState (trace s) (heap s ++ [id]), Normal (VRoutine (length (heap s)))).

(** [this.id] for the [Routine] at [this]. *)
Definition this_id (this : nat) : M value :=
  fun s => (s, Normal (nth this (heap s) VUndefined)).

End Js.

Import Js.

Declare Scope js_scope.
Delimit Scope js_scope with js.
Notation "x <- m ;; k" := (bind m (fun x => k))
  (at level 61, m at next level, right associativity) : js_scope.
Notation "m ;; k" := (bind m (fun _ => k))
  (at level 61, right associativity) : js_scope.
Notation "a &&& b" := (and_ a b) (at level 40, left associativity) : js_scope.
Open Scope js_scope.

(** ** The public surface, enumerated *)

(** The run-methods of the category managers (battery, CPU, memory, disk,
    NVMe), one constructor per method of [src/diagnostics_manager.js]. *)
Inductive run_method : Type :=
  | BatteryCapacity
  | BatteryHealth
  | BatteryDischarge
  | BatteryCharge
  | CpuCache
  | CpuStress
  | CpuFloatingPointAccuracy
  | CpuPrimeSearch
  | Memory
  | DiskRead
  | NvmeSmartctlCheck
  | NvmeWearLevel.

(** The entry point of [chrome.os.diagnostics] behind each run-method. *)
Definition entry_point (m : run_method) : string :=
  match m with
  | BatteryCapacity => "runBatteryCapacityRoutine"
  | BatteryHealth => "runBatteryHealthRoutine"
  | BatteryDischarge => "runBatteryDischargeRoutine"
  | BatteryCharge => "runBatteryChargeRoutine"
  | CpuCache => "runCpuCacheRoutine"
  | CpuStress => "runCpuStressRoutine"
  | CpuFloatingPointAccuracy => "runCpuFloatingPointAccuracyRoutine"
  | CpuPrimeSearch => "runCpuPrimeSearchRoutine"
  | Memory => "runMemoryRoutine"
  | DiskRead => "runDiskReadRoutine"
  | NvmeSmartctlCheck => "runSmartctlCheckRoutine"
  | NvmeWearLevel => "runNvmeWearLevelRoutine"
  end.

(** The arguments each run-method hands to its entry point: the caller's
    [params] for the methods that take one, nothing for the others. *)
Definition run_args (m : run_method) (params : value) : list value :=
  match m with
  | BatteryCapacity | BatteryHealth | Memory | DiskRead | NvmeSmartctlCheck => []
  | _ => [params]
  end.

(** [chrome.os.diagnostics[name]] evaluates to a function. *)
Definition callable (h : host) (name : string) : bool :=
  match chrome_os_diagnostics_at h name (mkState [] []) with
  | (_, Normal HFunction) => true
  | _ => false
  end.

(** How the promise an [async] method builds around a host call settles:
    with the returned promise, or rejected with what the call threw. *)
Definition settle (r : host_result) : settlement :=
  match r with
  | Returns v => resolve v
  | Raises e => Rejected e
  end.

(** The request object [{id: id, command: command}]. *)
Definition request (id : value) (command : string) : value :=
  VObject [("id", id); ("command", VStr command)].

(** [haystack.includes(needle)]. *)
Fixpoint includes (haystack needle : string) : bool :=
  String.prefix needle haystack ||
  match haystack with
  | EmptyString => false
  | String _ rest => includes rest needle
  end.

(** ** [src/diagnostics_manager.js]: the manager with the capability probe *)

Module Checked.

Definition ROUTINE_COMMAND_TYPE_CANCEL : string := "cancel".
Definition ROUTINE_COMMAND_TYPE_REMOVE : string := "remove".
Definition ROUTINE_COMMAND_TYPE_RESUME : string := "resume".
Definition ROUTINE_COMMAND_TYPE_GET_STATUS : string := "status".

(** [getErrorMessage(functionName)]. *)
Definition getErrorMessage (functionName : string) : string :=
  "DPSL: chrome.os.diagnostics." ++ functionName ++ "() is not found." ++
  " Consider updating Google Chrome.".

Section WithHost.

Variable h : host.

(** *** class Routine *)

(** [Routine.prototype._getRoutineUpdate(command)]. *)
Definition _getRoutineUpdate (this : nat) (command : string) : M value :=
  async (
    id <- this_id this ;;
    let request := VObject [("id", id); ("command", VStr command)] in
    chrome_os_diagnostics_call h "getRoutineUpdate" [request]).

(** [Routine.prototype.getStatus()]. *)
Definition getStatus (this : nat) : M value :=
  async (_getRoutineUpdate this ROUTINE_COMMAND_TYPE_GET_STATUS).

(** [Routine.prototype.resume()]. *)
Definition resume (this : nat) : M value :=
  async (_getRoutineUpdate this ROUTINE_COMMAND_TYPE_RESUME).

(** [Routine.prototype.stop()]: the promise of the cancel command is
    dropped, the promise of the remove command is returned. *)
Definition stop (this : nat) : M value :=
  async (
    _getRoutineUpdate this ROUTINE_COMMAND_TYPE_CANCEL ;;
    _getRoutineUpdate this ROUTINE_COMMAND_TYPE_REMOVE).

(** [isSupported(functionName)]. *)
Definition isSupported (functionName : string) : M hostval :=
  chrome_os h &&& chrome_os_diagnostics h &&&
  chrome_os_diagnostics_at h functionName &&&
  (f <- chrome_os_diagnostics_at h functionName ;;
   ret (HData (VBool (String.eqb (htypeof f) "function")))).

(** The callback [(response) => new Routine(response.id)]. *)
Definition wrap_response (response : value) : M value :=
  id <- get_id response ;; new_Routine id.

(** The guard that opens every method of the managers:
    [if (!isSupported(functionName)) return Promise.reject(new Error(...))],
    followed by the rest of the body. *)
Definition guarded (functionName : string) (rest : M value) : M value :=
  supported <- isSupported functionName ;;
  if negb (htruthy supported)
  then ret (Promise_reject (VError (getErrorMessage functionName)))
  else rest.

(** *** class BatteryManager *)

Definition BatteryManager_runCapacityRoutine : M value :=
  async (
    let functionName := "runBatteryCapacityRoutine" in
    guarded functionName (
      p <- chrome_os_diagnostics_call h "runBatteryCapacityRoutine" [] ;;
      then_ p wrap_response)).

Definition BatteryManager_runHealthRoutine : M value :=
  async (
    let functionName := "runBatteryHealthRoutine" in
    guarded functionName (
      p <- chrome_os_diagnostics_call h "runBatteryHealthRoutine" [] ;;
      then_ p wrap_response)).

Definition BatteryManager_runDischargeRoutine (params : value) : M value :=
  async (
    let functionName := "runBatteryDischargeRoutine" in
    guarded functionName (
      p <- chrome_os_diagnostics_call h "runBatteryDischargeRoutine" [params] ;;
      then_ p wrap_response)).

Definition BatteryManager_runChargeRoutine (params : value) : M value :=
  async (
    let functionName := "runBatteryChargeRoutine" in
    guarded functionName (
      p <- chrome_os_diagnostics_call h "runBatteryChargeRoutine" [params] ;;
      then_ p wrap_response)).

(** *** class CpuManager *)

Definition CpuManager_runCacheRoutine (params : value) : M value :=
  async (
    let functionName := "runCpuCacheRoutine" in
    guarded functionName (
      p <- chrome_os_diagnostics_call h "runCpuCacheRoutine" [params] ;;
      then_ p wrap_response)).

Definition CpuManager_runStressRoutine (params : value) : M value :=
  async (
    let functionName := "runCpuStressRoutine" in
    guarded functionName (
      p <- chrome_os_diagnostics_call h "runCpuStressRoutine" [params] ;;
      then_ p wrap_response)).

Definition CpuManager_runFloatingPointAccuracyRoutine (params : value) : M value :=
  async (
    let functionName := "runCpuFloatingPointAccuracyRoutine" in
    guarded functionName (
      p <- chrome_os_diagnostics_call h "runCpuFloatingPointAccuracyRoutine" [params] ;;
      then_ p wrap_response)).

Definition CpuManager_runPrimeSearchRoutine (params : value) : M value :=
  async (
    let functionName := "runCpuPrimeSearchRoutine" in
    guarded functionName (
      p <- chrome_os_diagnostics_call h "runCpuPrimeSearchRoutine" [params] ;;
      then_ p wrap_response)).

(** *** class MemoryManager *)

Definition MemoryManager_runMemoryRoutine : M value :=
  async (
    let functionName := "runMemoryRoutine" in
    guarded functionName (
      p <- chrome_os_diagnostics_call h "runMemoryRoutine" [] ;;
      then_ p wrap_response)).

(** *** class DiskManager *)

Definition DiskManager_runReadRoutine : M value :=
  async (
    let functionName := "runDiskReadRoutine" in
    guarded functionName (
      p <- chrome_os_diagnostics_call h "runDiskReadRoutine" [] ;;
      then_ p wrap_response)).

(** *** class NvmeManager *)

Definition NvmeManager_runSmartctlCheckRoutine : M value :=
  async (
    let functionName := "runSmartctlCheckRoutine" in
    guarded functionName (
      p <- chrome_os_diagnostics_call h "runSmartctlCheckRoutine" [] ;;
      then_ p wrap_response)).

Definition NvmeManager_runWearLevelRoutine (params : value) : M value :=
  async (
    let functionName := "runNvmeWearLevelRoutine" in
    guarded functionName (
      p <- chrome_os_diagnostics_call h "runNvmeWearLevelRoutine" [params] ;;
      then_ p wrap_response)).

(** *** class DPSLDiagnosticsManager *)

Definition getAvailableRoutines : M value :=
  async (
    let functionName := "getAvailableRoutines" in
    guarded functionName (
      chrome_os_diagnostics_call h "getAvailableRoutines" [])).

(** The run-method [m] of its manager, called with [params]. *)
Definition run (m : run_method) (params : value) : M value :=
  match m with
  | BatteryCapacity => BatteryManager_runCapacityRoutine
  | BatteryHealth => BatteryManager_runHealthRoutine
  | BatteryDischarge => BatteryManager_runDischargeRoutine params
  | BatteryCharge => BatteryManager_runChargeRoutine params
  | CpuCache => CpuManager_runCacheRoutine params
  | CpuStress => CpuManager_runStressRoutine params
  | CpuFloatingPointAccuracy => CpuManager_runFloatingPointAccuracyRoutine params
  | CpuPrimeSearch => CpuManager_runPrimeSearchRoutine params
  | Memory => MemoryManager_runMemoryRoutine
  | DiskRead => DiskManager_runReadRoutine
  | NvmeSmartctlCheck => NvmeManager_runSmartctlCheckRoutine
  | NvmeWearLevel => NvmeManager_runWearLevelRoutine params
  end.

End WithHost.

End Checked.

(** ** The revision without the capability probe *)

Module Unchecked.

Definition ROUTINE_COMMAND_TYPE_CANCEL : string := "cancel".
Definition ROUTINE_COMMAND_TYPE_REMOVE : string := "remove".
Definition ROUTINE_COMMAND_TYPE_RESUME : string := "resume".
Definition ROUTINE_COMMAND_TYPE_GET_STATUS : string := "status".

Section WithHost.

Variable h : host.

(** *** class Routine *)

Definition _getRoutineUpdate (this : nat) (command : string) : M value :=
  async (
    id <- this_id this ;;
    let request := VObject [("id", id); ("command", VStr command)] in
    chrome_os_diagnostics_call h "getRoutineUpdate" [request]).

Definition getStatus (this : nat) : M value :=
  async (_getRoutineUpdate this ROUTINE_COMMAND_TYPE_GET_STATUS).

Definition resume (this : nat) : M value :=
  async (_getRoutineUpdate this ROUTINE_COMMAND_TYPE_RESUME).

Definition stop (this : nat) : M value :=
  async (
    _getRoutineUpdate this ROUTINE_COMMAND_TYPE_CANCEL ;;
    _getRoutineUpdate this ROUTINE_COMMAND_TYPE_REMOVE).

(** The callback [(response) => new Routine(response.id)]. *)
Definition wrap_response (response : value) : M value :=
  id <- get_id response ;; new_Routine id.

(** *** class BatteryManager *)

Definition BatteryManager_runCapacityRoutine : M value :=
  async (
    p <- chrome_os_diagnostics_call h "runBatteryCapacityRoutine" [] ;;
    then_ p wrap_response).

Definition BatteryManager_runHealthRoutine : M value :=
  async (
    p <- chrome_os_diagnostics_call h "runBatteryHealthRoutine" [] ;;
    then_ p wrap_response).

Definition BatteryManager_runDischargeRoutine (params : value) : M value :=
  async (
    p <- chrome_os_diagnostics_call h "runBatteryDischargeRoutine" [params] ;;
    then_ p wrap_response).

Definition BatteryManager_runChargeRoutine (params : value) : M value :=
  async (
    p <- chrome_os_diagnostics_call h "runBatteryChargeRoutine" [params] ;;
    then_ p wrap_response).

(** *** class CpuManager *)

Definition CpuManager_runCacheRoutine (params : value) : M value :=
  async (
    p <- chrome_os_diagnostics_call h "runCpuCacheRoutine" [params] ;;
    then_ p wrap_response).

Definition CpuManager_runStressRoutine (params : value) : M value :=
  async (
    p <- chrome_os_diagnostics_call h "runCpuStressRoutine" [params] ;;
    then_ p wrap_response).

(** *** class MemoryManager *)

Definition MemoryManager_runMemoryRoutine : M value :=
  async (
    p <- chrome_os_diagnostics_call h "runMemoryRoutine" [] ;;
    then_ p wrap_response).

(** *** class DPSLDiagnosticsManager *)

Definition getAvailableRoutines : M value :=
  async (chrome_os_diagnostics_call h "getAvailableRoutines" []).

(** The run-method [m] of its manager, for the methods this revision has. *)
Definition run (m : run_method) (params : value) : option (M value) :=
  match m with
  | BatteryCapacity => Some BatteryManager_runCapacityRoutine
  | BatteryHealth => Some BatteryManager_runHealthRoutine
  | BatteryDischarge => Some (BatteryManager_runDischargeRoutine params)
  | BatteryCharge => Some (BatteryManager_runChargeRoutine params)
  | CpuCache => Some (CpuManager_runCacheRoutine params)
  | CpuStress => Some (CpuManager_runStressRoutine params)
  | Memory => Some MemoryManager_runMemoryRoutine
  | _ => None
  end.

End WithHost.

End Unchecked.

(** ** Operations and sequences of operations *)

(** Everything a caller can do with the manager and its handles. *)
Inductive operation : Type :=
  | Run (m : run_method) (params : value)
  | GetAvailableRoutines
  | GetStatus (this : nat)
  | Resume (this : nat)
  | Stop (this : nat).

Definition perform (h : host) (op : operation) : M value :=
  match op with
  | Run m params => Checked.run h m params
  | GetAvailableRoutines => Checked.getAvailableRoutines h
  | GetStatus this => Checked.getStatus h this
  | Resume this => Checked.resume h this
  | Stop this => Checked.stop h this
  end.

(** The same operation in the revision without the probe, where it has it. *)
Definition perform_unchecked (h : host) (op : operation) : option (M value) :=
  match op with
  | Run m params => Unchecked.run h m params
  | GetAvailableRoutines => Some (Unchecked.getAvailableRoutines h)
  | GetStatus this => Some (Unchecked.getStatus h this)
  | Resume this => Some (Unchecked.resume h this)
  | Stop this => Some (Unchecked.stop h this)
  end.

(** The entry point an operation needs. *)
Definition required_entry (op : operation) : string :=
  match op with
  | Run m _ => entry_point m
  | GetAvailableRoutines => "getAvailableRoutines"
  | GetStatus _ | Resume _ | Stop _ => "getRoutineUpdate"
  end.

(** The host call whose promise the operation hands back to its caller. *)
Definition returned_call (op : operation) (s : state) : call :=
  match op with
  | Run m params => mkCall (entry_point m) (run_args m params)
  | GetAvailableRoutines => mkCall "getAvailableRoutines" []
  | GetStatus this =>
      mkCall "getRoutineUpdate" [request (nth this (heap s) VUndefined) "status"]
  | Resume this =>
      mkCall "getRoutineUpdate" [request (nth this (heap s) VUndefined) "resume"]
  | Stop this =>
      mkCall "getRoutineUpdate" [request (nth this (heap s) VUndefined) "remove"]
  end.

(** The operations that open with the capability probe. *)
Definition probed (op : operation) : bool :=
  match op with
  | Run _ _ | GetAvailableRoutines => true
  | _ => false
  end.

(** The operations that hand back the host's own promise; the run-methods
    hand back the promise of a handle instead. *)
Definition forwards (op : operation) : bool :=
  match op with
  | Run _ _ => false
  | _ => true
  end.

(** The host calls the operation makes before that one. *)
Definition earlier_calls (op : operation) (s : state) : list call :=
  match op with
  | Stop this =>
      [mkCall "getRoutineUpdate" [request (nth this (heap s) VUndefined) "cancel"]]
  | _ => []
  end.

(** A caller's session: the operations are performed one after the other,
    whatever each of them returns. *)
Fixpoint session (h : host) (ops : list operation) (s : state) : state :=
  match ops with
  | [] => s
  | op :: rest => session h rest (fst (perform h op s))
  end.

(** The sentence "any rejection from the external API is propagated to the
    caller unchanged", read for every host call an operation makes: whenever
    the [i]-th call the operation [op] makes is rejected with [e], the
    promise [op] returns is rejected with [e]. *)
Definition every_rejection_reaches_the_caller : Prop :=
  forall (h : host) (op : operation) (s : state) (i : nat) (c : call) (e : value),
    callable h (required_entry op) = true ->
    nth_error (trace (fst (perform h op s))) (length (trace s) + i) = Some c ->
    settle (backend h (firstn (length (trace s) + i) (trace (fst (perform h op s)))) c)
      = Rejected e ->
    snd (perform h op s) = Normal (VPromise (Rejected e)).


(** ** Hosts used as concrete inputs *)

(** A host with no [chrome.os] at all. *)
Definition bare_host : host :=
  mkHost [("runtime", HNamespace [])] (fun _ _ => Returns VUndefined).

Definition all_entry_points : list (string * hostval) :=
  map (fun name => (name, HFunction))
    ["getAvailableRoutines"; "getRoutineUpdate";
     "runBatteryCapacityRoutine"; "runBatteryHealthRoutine";
     "runBatteryDischargeRoutine"; "runBatteryChargeRoutine";
     "runCpuCacheRoutine"; "runCpuStressRoutine";
     "runCpuFloatingPointAccuracyRoutine"; "runCpuPrimeSearchRoutine";
     "runMemoryRoutine"; "runDiskReadRoutine";
     "runSmartctlCheckRoutine"; "runNvmeWearLevelRoutine"].

Definition full_chrome : list (string * hostval) :=
  [("os", HNamespace [("diagnostics", HNamespace all_entry_points)])].

(** The [command] field of the request a [getRoutineUpdate] call received. *)
Definition command_of (c : call) : option value :=
  match args c with
  | [VObject fields] => assoc "command" fields
  | _ => None
  end.

(** A host with every entry point.  Its [getRoutineUpdate] rejects the
    cancel command and answers every other command with a status record;
    [getAvailableRoutines] answers a list; every run call answers
    [{id: 42}]. *)
Definition full_host : host :=
  mkHost full_chrome (fun _ c =>
    if String.eqb (entry c) "getRoutineUpdate" then
      match command_of c with
      | Some (VStr "cancel") => Returns (VPromise (Rejected (VError "cancel failed")))
      | _ => Returns (VPromise (Fulfilled (VObject [("status", VStr "ready")])))
      end
    else if String.eqb (entry c) "getAvailableRoutines" then
      Returns (VPromise (Fulfilled (VObject [("routines", VStr "memory")])))
    else Returns (VPromise (Fulfilled (VObject [("id", VNum 42)])))).

(** A host with every entry point whose calls are all rejected. *)
Definition failing_host : host :=
  mkHost full_chrome (fun _ _ => Returns (VPromise (Rejected (VStr "backend down")))).

(** A host with every entry point whose calls all get the same answer. *)
Definition answering_host (answer : host_result) : host :=
  mkHost full_chrome (fun _ _ => answer).

(** A state with one handle, of identifier 7, and no call made yet. *)
Definition one_handle : state := mkState [] [VNum 7].

(** ** Evaluation lemmas *)

Lemma hget_pure (x : hostval) (name : string) (s : state) :
  hget x name s = (s, snd (hget x name (mkState [] []))).
Proof.
  destruct x as [v | | members]; try reflexivity.
  destruct v; reflexivity.
Qed.

Lemma chrome_os_diagnostics_at_pure (h : host) (name : string) (s : state) :
  chrome_os_diagnostics_at h name s
  = (s, snd (chrome_os_diagnostics_at h name (mkState [] []))).
Proof.
  unfold chrome_os_diagnostics_at, chrome_os_diagnostics, chrome_os, bind.
  rewrite (hget_pure _ "os" s). simpl.
  destruct (assoc "os" (chrome h)) as [os |]; simpl; [|reflexivity].
  rewrite (hget_pure os "diagnostics" s).
  destruct (hget os "diagnostics" _) as [s1 [d | e]] eqn:E; simpl; [|reflexivity].
  rewrite (hget_pure os "diagnostics" _) in E. injection E as <- E.
  rewrite (hget_pure d name s).
  destruct (hget d name _) as [s2 r] eqn:E2.
  rewrite (hget_pure d name _) in E2. injection E2 as <- E2. reflexivity.
Qed.

Lemma callable_at (h : host) (name : string) (s : state) :
  callable h name = true ->
  chrome_os_diagnostics_at h name s = (s, Normal HFunction).
Proof.
  unfold callable. intros C. rewrite chrome_os_diagnostics_at_pure.
  destruct (chrome_os_diagnostics_at h name _) as [s0 [[v | | ms] | e]];
    try discriminate; reflexivity.
Qed.

Lemma not_callable_at (h : host) (name : string) (s : state) :
  callable h name = false ->
  exists r, chrome_os_diagnostics_at h name s = (s, r) /\ r <> Normal HFunction.
Proof.
  unfold callable. intros C. rewrite chrome_os_diagnostics_at_pure.
  eexists; split; [reflexivity|].
  destruct (chrome_os_diagnostics_at h name _) as [s0 [[v | | ms] | e]];
    simpl; try discriminate; congruence.
Qed.
Lemma bind_normal {A B : Type} (m : M A) (k : A -> M B) (s s' : state) (a : A) :
  m s = (s', Normal a) -> bind m k s = k a s'.
Proof. unfold bind. intros ->. reflexivity. Qed.

Lemma bind_throw {A B : Type} (m : M A) (k : A -> M B) (s s' : state) (e : value) :
  m s = (s', Throw e) -> bind m k s = (s', Throw e).
Proof. unfold bind. intros ->. reflexivity. Qed.

Lemma and_truthy (a b : M hostval) (s s' : state) (x : hostval) :
  a s = (s', Normal x) -> htruthy x = true -> and_ a b s = b s'.
Proof. unfold and_. intros E T. rewrite (bind_normal _ _ _ _ _ E), T. reflexivity. Qed.

Lemma and_falsy (a b : M hostval) (s s' : state) (x : hostval) :
  a s = (s', Normal x) -> htruthy x = false -> and_ a b s = (s', Normal x).
Proof. unfold and_. intros E T. rewrite (bind_normal _ _ _ _ _ E), T. reflexivity. Qed.

Lemma hget_truthy (x : hostval) (name : string) :
  htruthy x = true ->
  exists y, forall s, hget x name s = (s, Normal y).
Proof.
  destruct x as [v | | members]; simpl; intros T.
  - destruct v; try discriminate; eexists; intros ?; reflexivity.
  - eexists; intros ?; reflexivity.
  - eexists; intros ?; reflexivity.
Qed.

Lemma hget_falsy (x : hostval) (name : string) (s : state) :
  htruthy x = false ->
  hget x name s = (s, Throw VTypeError)
  \/ hget x name s = (s, Normal (HData VUndefined)).
Proof.
  destruct x as [v | | members]; simpl; intros T; try discriminate.
  destruct v; try discriminate; simpl; auto.
Qed.

Lemma typeof_function (m : hostval) :
  String.eqb (htypeof m) "function" = match m with HFunction => true | _ => false end.
Proof. destruct m as [v | | ms]; try reflexivity. destruct v; reflexivity. Qed.

Lemma chrome_os_eval (h : host) (s : state) :
  chrome_os h s
  = (s, Normal match assoc "os" (chrome h) with
               | Some m => m
               | None => HData VUndefined
               end).
Proof. reflexivity. Qed.

(** The probe never throws, leaves the state alone, and its answer is
    truthy exactly when [chrome.os.diagnostics[functionName]] is a function. *)
Lemma isSupported_spec (h : host) (functionName : string) (s : state) :
  exists v, Checked.isSupported h functionName s = (s, Normal v)
            /\ htruthy v = callable h functionName.
Proof.
  unfold Checked.isSupported, callable.
  pose proof (chrome_os_eval h) as Eos.
  set (os := match assoc "os" (chrome h) with Some m => m | None => HData VUndefined end) in Eos.
  assert (Ed : forall s0, chrome_os_diagnostics h s0 = hget os "diagnostics" s0).
  { intros s0. unfold chrome_os_diagnostics. now rewrite (bind_normal _ _ _ _ _ (Eos s0)). }
  destruct (htruthy os) eqn:Tos.
  - destruct (hget_truthy os "diagnostics" Tos) as [d Hd].
    assert (Em : forall s0, chrome_os_diagnostics_at h functionName s0
                            = hget d functionName s0).
    { intros s0. unfold chrome_os_diagnostics_at.
      now rewrite (bind_normal _ _ _ _ _ (eq_trans (Ed s0) (Hd s0))). }
    rewrite Em.
    assert (E1 : (chrome_os h &&& chrome_os_diagnostics h) s = (s, Normal d)).
    { rewrite (and_truthy _ _ _ _ _ (Eos s) Tos), Ed. apply Hd. }
    destruct (htruthy d) eqn:Td.
    + destruct (hget_truthy d functionName Td) as [m Hm].
      assert (E2 : (chrome_os h &&& chrome_os_diagnostics h &&&
                    chrome_os_diagnostics_at h functionName) s = (s, Normal m)).
      { rewrite (and_truthy _ _ _ _ _ E1 Td), Em. apply Hm. }
      rewrite Hm.
      destruct (htruthy m) eqn:Tm.
      * rewrite (and_truthy _ _ _ _ _ E2 Tm).
        rewrite (bind_normal _ _ _ _ _ (eq_trans (Em s) (Hm s))).
        eexists; split; [reflexivity|]. simpl. apply typeof_function.
      * rewrite (and_falsy _ _ _ _ _ E2 Tm).
        exists m; split; [reflexivity|]. rewrite Tm.
        destruct m as [v | | ms]; try discriminate; reflexivity.
    + assert (E2 : (chrome_os h &&& chrome_os_diagnostics h &&&
                    chrome_os_diagnostics_at h functionName) s = (s, Normal d)).
      { apply (and_falsy _ _ _ _ _ E1 Td). }
      rewrite (and_falsy _ _ _ _ _ E2 Td).
      exists d; split; [reflexivity|]. rewrite Td.
      destruct (hget_falsy d functionName (mkState [] []) Td) as [E | E];
        rewrite E; reflexivity.
  - assert (E1 : (chrome_os h &&& chrome_os_diagnostics h) s = (s, Normal os)).
    { apply (and_falsy _ _ _ _ _ (Eos s) Tos). }
    assert (E2 : (chrome_os h &&& chrome_os_diagnostics h &&&
                  chrome_os_diagnostics_at h functionName) s = (s, Normal os)).
    { apply (and_falsy _ _ _ _ _ E1 Tos). }
    rewrite (and_falsy _ _ _ _ _ E2 Tos).
    exists os; split; [reflexivity|]. rewrite Tos.
    unfold chrome_os_diagnostics_at.
    destruct (hget_falsy os "diagnostics" (mkState [] []) Tos) as [E | E].
    + rewrite (bind_throw _ _ _ _ _ (eq_trans (Ed _) E)). reflexivity.
    + rewrite (bind_normal _ _ _ _ _ (eq_trans (Ed _) E)). reflexivity.
Qed.

Lemma hget_throws_TypeError (x : hostval) (name : string) (s s' : state) (e : value) :
  hget x name s = (s', Throw e) -> e = VTypeError.
Proof.
  destruct x as [v | | members]; simpl; try discriminate.
  destruct v; simpl; unfold throw, ret; congruence.
Qed.

Lemma hcall_function (h : host) (name : string) (arguments : list value) (s : state) :
  hcall h HFunction name arguments s
  = (mkState (trace s ++ [mkCall name arguments]) (heap s),
     match backend h (trace s) (mkCall name arguments) with
     | Returns v => Normal v
     | Raises e => Throw e
     end).
Proof. simpl. destruct (backend h (trace s) _); reflexivity. Qed.

(** A call through an entry point that is a function reaches the host. *)
Lemma call_present (h : host) (name : string) (arguments : list value) (s : state) :
  callable h name = true ->
  chrome_os_diagnostics_call h name arguments s
  = hcall h HFunction name arguments s.
Proof.
  intros C. unfold chrome_os_diagnostics_call.
  now rewrite (bind_normal _ _ _ _ _ (callable_at h name s C)).
Qed.

(** A call through anything else is a TypeError, and the host sees nothing. *)
Lemma call_absent (h : host) (name : string) (arguments : list value) (s : state) :
  callable h name = false ->
  chrome_os_diagnostics_call h name arguments s = (s, Throw VTypeError).
Proof.
  intros C. destruct (not_callable_at h name s C) as [r [E N]].
  unfold chrome_os_diagnostics_call.
  destruct r as [f | e].
  - rewrite (bind_normal _ _ _ _ _ E).
    destruct f as [v | | ms]; try reflexivity. congruence.
  - rewrite (bind_throw _ _ _ _ _ E). f_equal. f_equal.
    revert E. unfold chrome_os_diagnostics_at, chrome_os_diagnostics, bind.
    rewrite chrome_os_eval.
    destruct (hget _ "diagnostics" s) as [s1 [d | e1]] eqn:Ed.
    + intros E. now apply hget_throws_TypeError in E.
    + intros E. injection E as _ <-. now apply hget_throws_TypeError in Ed.
Qed.

Lemma guarded_present (h : host) (functionName : string) (rest : M value) (s : state) :
  callable h functionName = true ->
  Checked.guarded h functionName rest s = rest s.
Proof.
  intros C. destruct (isSupported_spec h functionName s) as [v [E T]].
  unfold Checked.guarded. rewrite (bind_normal _ _ _ _ _ E), T, C. reflexivity.
Qed.

Lemma guarded_absent (h : host) (functionName : string) (rest : M value) (s : state) :
  callable h functionName = false ->
  Checked.guarded h functionName rest s
  = (s, Normal (Promise_reject (VError (Checked.getErrorMessage functionName)))).
Proof.
  intros C. destruct (isSupported_spec h functionName s) as [v [E T]].
  unfold Checked.guarded. rewrite (bind_normal _ _ _ _ _ E), T, C. reflexivity.
Qed.

Lemma async_ext (a b : M value) (s : state) : a s = b s -> async a s = async b s.
Proof. unfold async. intros ->. reflexivity. Qed.

(** With its entry point present, a run-method is the call followed by the
    wrapping of the response. *)
Lemma run_present (h : host) (m : run_method) (params : value) (s : state) :
  callable h (entry_point m) = true ->
  Checked.run h m params s
  = async (p <- hcall h HFunction (entry_point m) (run_args m params) ;;
           then_ p Checked.wrap_response) s.
Proof.
  intros C.
  destruct m; simpl in C |- *; apply async_ext;
    rewrite (guarded_present _ _ _ _ C); unfold bind;
    rewrite (call_present _ _ _ _ C); reflexivity.
Qed.

(** With its entry point absent, a run-method rejects with the message
    for that entry point and the state is untouched. *)
Lemma run_absent (h : host) (m : run_method) (params : value) (s : state) :
  callable h (entry_point m) = false ->
  Checked.run h m params s
  = (s, Normal (VPromise (Rejected (VError (Checked.getErrorMessage (entry_point m)))))).
Proof.
  intros C.
  destruct m; simpl in C |- *;
    match goal with
    | |- ?f h s = _ => unfold f
    | |- ?f h _ s = _ => unfold f
    end; unfold async; rewrite (guarded_absent _ _ _ _ C); reflexivity.
Qed.

Lemma getRoutineUpdate_present (h : host) (this : nat) (command : string) (s : state) :
  callable h "getRoutineUpdate" = true ->
  Checked._getRoutineUpdate h this command s
  = (mkState (trace s ++ [mkCall "getRoutineUpdate"
                            [request (nth this (heap s) VUndefined) command]])
             (heap s),
     Normal (VPromise (settle (backend h (trace s)
       (mkCall "getRoutineUpdate" [request (nth this (heap s) VUndefined) command]))))).
Proof.
  intros C. unfold Checked._getRoutineUpdate, async, bind, this_id.
  rewrite (call_present _ _ _ _ C), hcall_function. simpl.
  unfold request. destruct (backend h (trace s) _); reflexivity.
Qed.

Lemma getRoutineUpdate_absent (h : host) (this : nat) (command : string) (s : state) :
  callable h "getRoutineUpdate" = false ->
  Checked._getRoutineUpdate h this command s
  = (s, Normal (VPromise (Rejected VTypeError))).
Proof.
  intros C. unfold Checked._getRoutineUpdate, async, bind, this_id.
  rewrite (call_absent _ _ _ _ C). reflexivity.
Qed.

(** ** Strings *)

Lemma append_assoc (a b c : string) : ((a ++ b) ++ c = a ++ (b ++ c))%string.
Proof. induction a as [| x a IH]; simpl; [reflexivity | now rewrite IH]. Qed.

Lemma prefix_append (n rest : string) : String.prefix n (n ++ rest) = true.
Proof.
  induction n as [| x n IH]; simpl.
  - destruct rest; reflexivity.
  - destruct (Ascii.ascii_dec x x) as [_ | N]; [exact IH | now elim N].
Qed.

Lemma includes_unfold (haystack needle : string) :
  includes haystack needle
  = String.prefix needle haystack ||
    match haystack with
    | EmptyString => false
    | String _ rest => includes rest needle
    end.
Proof. destruct haystack; reflexivity. Qed.

Lemma includes_middle (before n rest : string) :
  includes (before ++ n ++ rest) n = true.
Proof.
  induction before as [| x before IH]; rewrite includes_unfold.
  - change ("" ++ n ++ rest)%string with (n ++ rest)%string.
    now rewrite prefix_append.
  - change (String x before ++ n ++ rest)%string
      with (String x (before ++ n ++ rest)).
    cbv iota. rewrite IH. apply orb_true_r.
Qed.

Lemma getErrorMessage_includes_name (functionName : string) :
  includes (Checked.getErrorMessage functionName) functionName = true.
Proof. unfold Checked.getErrorMessage. apply includes_middle. Qed.

Lemma getErrorMessage_includes_not_found (functionName : string) :
  includes (Checked.getErrorMessage functionName) "not found" = true.
Proof.
  unfold Checked.getErrorMessage.
  change ("() is not found." ++ " Consider updating Google Chrome.")%string
    with ("() is " ++ "not found" ++ ". Consider updating Google Chrome.")%string.
  rewrite <- (append_assoc functionName), <- append_assoc.
  apply includes_middle.
Qed.

Lemma getErrorMessage_includes_update (functionName : string) :
  includes (Checked.getErrorMessage functionName)
           "Consider updating Google Chrome" = true.
Proof.
  unfold Checked.getErrorMessage.
  change ("() is not found." ++ " Consider updating Google Chrome.")%string
    with ("() is not found. " ++ "Consider updating Google Chrome" ++ ".")%string.
  rewrite <- (append_assoc functionName), <- append_assoc.
  apply includes_middle.
Qed.

(** ** Evaluation of the operations *)

Lemma getAvailableRoutines_present (h : host) (s : state) :
  callable h "getAvailableRoutines" = true ->
  Checked.getAvailableRoutines h s
  = (mkState (trace s ++ [mkCall "getAvailableRoutines" []]) (heap s),
     Normal (VPromise (settle (backend h (trace s)
                                 (mkCall "getAvailableRoutines" []))))).
Proof.
  intros C. unfold Checked.getAvailableRoutines, async.
  cbv zeta. rewrite (guarded_present _ _ _ _ C), (call_present _ _ _ _ C).
  rewrite hcall_function.
  destruct (backend h (trace s) _); reflexivity.
Qed.

Lemma getAvailableRoutines_absent (h : host) (s : state) :
  callable h "getAvailableRoutines" = false ->
  Checked.getAvailableRoutines h s
  = (s, Normal (VPromise (Rejected
          (VError (Checked.getErrorMessage "getAvailableRoutines"))))).
Proof.
  intros C. unfold Checked.getAvailableRoutines, async.
  cbv zeta. now rewrite (guarded_absent _ _ _ _ C).
Qed.

(** An operation that forwards the host's promise, with its entry point in
    place: the calls it makes, and how its promise settles. *)
Lemma perform_forwarding (h : host) (op : operation) (s : state) :
  forwards op = true ->
  callable h (required_entry op) = true ->
  perform h op s
  = (mkState (trace s ++ earlier_calls op s ++ [returned_call op s]) (heap s),
     Normal (VPromise (settle (backend h (trace s ++ earlier_calls op s)
                                 (returned_call op s))))).
Proof.
  intros F C. destruct op as [m params | | this | this | this];
    try discriminate; cbn [perform earlier_calls returned_call app];
    cbn [required_entry] in C.
  - rewrite app_nil_r. now apply getAvailableRoutines_present.
  - rewrite app_nil_r. unfold Checked.getStatus, async.
    now rewrite (getRoutineUpdate_present _ _ _ _ C).
  - rewrite app_nil_r. unfold Checked.resume, async.
    now rewrite (getRoutineUpdate_present _ _ _ _ C).
  - unfold Checked.stop, async, bind.
    rewrite (getRoutineUpdate_present _ _ _ _ C).
    rewrite (getRoutineUpdate_present _ _ _ _ C).
    cbn [trace heap]. now rewrite <- app_assoc.
Qed.

(** Any operation, with its entry point missing: the probed ones reject
    with the descriptive error, the handle's with the TypeError of the
    failed call; the state is untouched. *)
Lemma perform_absent (h : host) (op : operation) (s : state) :
  callable h (required_entry op) = false ->
  perform h op s
  = (s, Normal (VPromise (Rejected
          (if probed op
           then VError (Checked.getErrorMessage (required_entry op))
           else VTypeError)))).
Proof.
  intros C. destruct op as [m params | | this | this | this];
    cbn [perform probed required_entry] in *.
  - now apply run_absent.
  - now apply getAvailableRoutines_absent.
  - unfold Checked.getStatus, async.
    now rewrite (getRoutineUpdate_absent _ _ _ _ C).
  - unfold Checked.resume, async.
    now rewrite (getRoutineUpdate_absent _ _ _ _ C).
  - unfold Checked.stop, async, bind.
    now rewrite !(getRoutineUpdate_absent _ _ _ _ C).
Qed.

(** No operation touches a [Routine] that exists already: the store only
    grows. *)
Lemma perform_extends_heap (h : host) (op : operation) (s : state) :
  exists fresh, heap (fst (perform h op s)) = heap s ++ fresh.
Proof.
  destruct (callable h (required_entry op)) eqn:C.
  - destruct (forwards op) eqn:F.
    + rewrite (perform_forwarding _ _ _ F C). exists []. cbn [fst heap].
      now rewrite app_nil_r.
    + destruct op as [m params | | this | this | this]; try discriminate.
      cbn [perform required_entry] in *.
      rewrite (run_present _ _ _ _ C). unfold async, bind.
      rewrite hcall_function.
      destruct (backend h (trace s) _) as [v | e];
        [| exists []; cbn [fst heap]; now rewrite app_nil_r].
      destruct v as [| | | | | | | | | | st];
        try (exists []; cbn [fst heap]; now rewrite app_nil_r).
      destruct st as [r | r |];
        try (exists []; cbn [fst heap]; now rewrite app_nil_r).
      destruct r; simpl;
        solve [ exists []; now rewrite app_nil_r | eexists; reflexivity ].
  - rewrite (perform_absent _ _ _ C). exists []. cbn [fst]. now rewrite app_nil_r.
Qed.

Lemma session_keeps_cells (h : host) (ops : list operation) (s : state)
    (a : nat) (v : value) :
  nth_error (heap s) a = Some v ->
  nth_error (heap (session h ops s)) a = Some v.
Proof.
  revert s. induction ops as [| op ops IH]; intros s E; cbn [session].
  - exact E.
  - apply IH. destruct (perform_extends_heap h op s) as [fresh ->].
    rewrite nth_error_app1; [exact E |].
    apply nth_error_Some. congruence.
Qed.

(** ** The routine handle *)

Lemma handle_id (s : state) (this : nat) (k : value) :
  nth_error (heap s) this = Some k -> nth this (heap s) VUndefined = k.
Proof. intros E. now apply nth_error_nth. Qed.

(** C1.  On a handle of identifier [k], with the host's [getRoutineUpdate]
    in place, [stop()] makes exactly two calls to it, first with
    [{id: k, command: "cancel"}], then with [{id: k, command: "remove"}].
    The promise it returns settles as the remove call does, whatever the
    host answered to the cancel call: fulfilled with the remove call's
    value, or rejected with its reason. *)
Theorem stop_cancels_then_removes
    (h : host) (this : nat) (k : value) (s : state) :
  callable h "getRoutineUpdate" = true ->
  nth_error (heap s) this = Some k ->
  let cancel := mkCall "getRoutineUpdate" [request k "cancel"] in
  let remove := mkCall "getRoutineUpdate" [request k "remove"] in
  Checked.stop h this s
  = (mkState (trace s ++ [cancel; remove]) (heap s),
     Normal (VPromise (settle (backend h (trace s ++ [cancel]) remove)))).
Proof.
  intros C K cancel remove.
  unfold Checked.stop, async, bind.
  rewrite (getRoutineUpdate_present _ _ _ _ C).
  rewrite (getRoutineUpdate_present _ _ _ _ C).
  cbn [trace heap]. rewrite (handle_id _ _ _ K), <- app_assoc.
  reflexivity.
Qed.

Lemma stop_cancels_then_removes_witness :
  callable full_host "getRoutineUpdate" = true /\
  nth_error (heap one_handle) 0 = Some (VNum 7) /\
  Checked.stop full_host 0 one_handle
  = (mkState [mkCall "getRoutineUpdate" [request (VNum 7) "cancel"];
              mkCall "getRoutineUpdate" [request (VNum 7) "remove"]]
             [VNum 7],
     Normal (VPromise (Fulfilled (VObject [("status", VStr "ready")])))).
Proof.
  split; [reflexivity | split; [reflexivity |]].
  exact (stop_cancels_then_removes full_host 0 (VNum 7) one_handle
           eq_refl eq_refl).
Defined.

(** C4.  On a handle of identifier [k], with the host's [getRoutineUpdate]
    in place, [getStatus()] makes exactly one call to it, with
    [{id: k, command: "status"}], and [resume()] exactly one, with
    [{id: k, command: "resume"}]; each returns a promise that settles as
    the host's does, so a response [v] of the host comes back as [v]. *)
Theorem getStatus_and_resume_forward
    (h : host) (this : nat) (k : value) (s : state) :
  callable h "getRoutineUpdate" = true ->
  nth_error (heap s) this = Some k ->
  let status := mkCall "getRoutineUpdate" [request k "status"] in
  let resume := mkCall "getRoutineUpdate" [request k "resume"] in
  (Checked.getStatus h this s
   = (mkState (trace s ++ [status]) (heap s),
      Normal (VPromise (settle (backend h (trace s) status)))))
  /\ (forall v, backend h (trace s) status = Returns (VPromise (Fulfilled v)) ->
        snd (Checked.getStatus h this s) = Normal (VPromise (Fulfilled v)))
  /\ (Checked.resume h this s
      = (mkState (trace s ++ [resume]) (heap s),
         Normal (VPromise (settle (backend h (trace s) resume)))))
  /\ (forall v, backend h (trace s) resume = Returns (VPromise (Fulfilled v)) ->
        snd (Checked.resume h this s) = Normal (VPromise (Fulfilled v))).
Proof.
  intros C K status resume.
  assert (Es : Checked.getStatus h this s
               = (mkState (trace s ++ [status]) (heap s),
                  Normal (VPromise (settle (backend h (trace s) status))))).
  { unfold Checked.getStatus, async.
    rewrite (getRoutineUpdate_present _ _ _ _ C), (handle_id _ _ _ K).
    reflexivity. }
  assert (Er : Checked.resume h this s
               = (mkState (trace s ++ [resume]) (heap s),
                  Normal (VPromise (settle (backend h (trace s) resume))))).
  { unfold Checked.resume, async.
    rewrite (getRoutineUpdate_present _ _ _ _ C), (handle_id _ _ _ K).
    reflexivity. }
  repeat split; trivial.
  - intros v B. rewrite Es. cbn [snd]. now rewrite B.
  - intros v B. rewrite Er. cbn [snd]. now rewrite B.
Qed.

Lemma getStatus_and_resume_forward_witness :
  callable full_host "getRoutineUpdate" = true /\
  nth_error (heap one_handle) 0 = Some (VNum 7) /\
  Checked.getStatus full_host 0 one_handle
  = (mkState [mkCall "getRoutineUpdate" [request (VNum 7) "status"]] [VNum 7],
     Normal (VPromise (Fulfilled (VObject [("status", VStr "ready")])))).
Proof.
  split; [reflexivity | split; [reflexivity |]].
  exact (proj1 (getStatus_and_resume_forward full_host 0 (VNum 7) one_handle
                  eq_refl eq_refl)).
Defined.

(** ** The run-methods *)

(** C2.  Whatever the run-method, when [chrome.os.diagnostics] has no
    function under its entry point (the entry point, or a namespace on the
    way to it, is missing, or what is there is not a function), the call
    returns a promise rejected with the error whose message names that entry
    point, and the state is the one before the call: the host has not been
    called. *)
Theorem run_rejects_when_unsupported
    (h : host) (m : run_method) (params : value) (s : state) :
  callable h (entry_point m) = false ->
  Checked.run h m params s
  = (s, Normal (VPromise (Rejected
          (VError (Checked.getErrorMessage (entry_point m)))))).
Proof. apply run_absent. Qed.

Lemma run_rejects_when_unsupported_witness :
  callable bare_host (entry_point DiskRead) = false /\
  Checked.run bare_host DiskRead VUndefined one_handle
  = (one_handle,
     Normal (VPromise (Rejected (VError
       "DPSL: chrome.os.diagnostics.runDiskReadRoutine() is not found. Consider updating Google Chrome.")))).
Proof.
  split; [reflexivity |].
  exact (run_rejects_when_unsupported bare_host DiskRead VUndefined one_handle
           eq_refl).
Defined.

(** C3.  Whatever the run-method, when its entry point is in place and the
    host fulfils the call with an object whose [id] is [k], the method
    returns a promise fulfilled with a new [Routine] whose [id] is [k]. *)
Theorem run_wraps_identifier
    (h : host) (m : run_method) (params : value) (s : state)
    (fields : list (string * value)) (k : value) :
  callable h (entry_point m) = true ->
  backend h (trace s) (mkCall (entry_point m) (run_args m params))
    = Returns (VPromise (Fulfilled (VObject fields))) ->
  assoc "id" fields = Some k ->
  let handle := length (heap s) in
  Checked.run h m params s
  = (mkState (trace s ++ [mkCall (entry_point m) (run_args m params)])
             (heap s ++ [k]),
     Normal (VPromise (Fulfilled (VRoutine handle))))
  /\ nth_error (heap (fst (Checked.run h m params s))) handle = Some k.
Proof.
  intros C B K handle.
  assert (E : Checked.run h m params s
    = (mkState (trace s ++ [mkCall (entry_point m) (run_args m params)])
               (heap s ++ [k]),
       Normal (VPromise (Fulfilled (VRoutine handle))))).
  { rewrite (run_present _ _ _ _ C). unfold async, bind.
    rewrite hcall_function, B. simpl. rewrite K. reflexivity. }
  split; [exact E |].
  rewrite E. cbn [fst heap]. unfold handle.
  rewrite nth_error_app2, Nat.sub_diag; [reflexivity | lia].
Qed.

Lemma run_wraps_identifier_witness :
  callable full_host (entry_point BatteryCapacity) = true /\
  Checked.run full_host BatteryCapacity VUndefined (mkState [] [])
  = (mkState [mkCall "runBatteryCapacityRoutine" []] [VNum 42],
     Normal (VPromise (Fulfilled (VRoutine 0)))).
Proof.
  split; [reflexivity |].
  exact (proj1 (run_wraps_identifier full_host BatteryCapacity VUndefined
                  (mkState [] []) [("id", VNum 42)] (VNum 42)
                  eq_refl eq_refl eq_refl)).
Defined.

(** C5.  The message of the unsupported-capability error is one template
    around the entry point's name: it contains that name, the words
    "not found", and the advice to update Chrome.  Every run-method
    rejects with that message for its own entry point when the entry point
    is missing; for the memory manager, the message contains
    "runMemoryRoutine" and "not found". *)
Theorem unsupported_message_names_entry_point (functionName : string) :
  Checked.getErrorMessage functionName
  = ("DPSL: chrome.os.diagnostics." ++ functionName ++
     "() is not found. Consider updating Google Chrome.")%string
  /\ includes (Checked.getErrorMessage functionName) functionName = true
  /\ includes (Checked.getErrorMessage functionName) "not found" = true
  /\ includes (Checked.getErrorMessage functionName)
              "Consider updating Google Chrome" = true
  /\ (forall (h : host) (m : run_method) (params : value) (s : state),
        callable h (entry_point m) = false ->
        snd (Checked.run h m params s)
        = Normal (VPromise (Rejected
            (VError (Checked.getErrorMessage (entry_point m))))))
  /\ (forall (h : host) (s : state),
        callable h "runMemoryRoutine" = false ->
        exists message,
          Checked.MemoryManager_runMemoryRoutine h s
          = (s, Normal (VPromise (Rejected (VError message))))
          /\ includes message "runMemoryRoutine" = true
          /\ includes message "not found" = true).
Proof.
  split; [reflexivity |].
  split; [apply getErrorMessage_includes_name |].
  split; [apply getErrorMessage_includes_not_found |].
  split; [apply getErrorMessage_includes_update |].
  split.
  - intros h m params s C. now rewrite (run_absent _ _ _ _ C).
  - intros h s C. eexists. split.
    + exact (run_absent h Memory VUndefined s C).
    + split; reflexivity.
Qed.

Lemma unsupported_message_names_entry_point_witness :
  callable bare_host "runMemoryRoutine" = false /\
  exists message,
    Checked.MemoryManager_runMemoryRoutine bare_host one_handle
    = (one_handle, Normal (VPromise (Rejected (VError message))))
    /\ includes message "runMemoryRoutine" = true
    /\ includes message "not found" = true.
Proof.
  split; [reflexivity |].
  exact (proj2 (proj2 (proj2 (proj2 (proj2
           (unsupported_message_names_entry_point "runMemoryRoutine")))))
           bare_host one_handle eq_refl).
Defined.

(** ** The top-level manager *)

(** C7.  [getAvailableRoutines()]: with the entry point in place, the
    method makes exactly one call to it, with no argument, and returns a
    promise that settles as the host's does; without it, the method returns
    a promise rejected with the unsupported-capability error and the host
    is not called. *)
Theorem getAvailableRoutines_forwards (h : host) (s : state) :
  (callable h "getAvailableRoutines" = true ->
   Checked.getAvailableRoutines h s
   = (mkState (trace s ++ [mkCall "getAvailableRoutines" []]) (heap s),
      Normal (VPromise (settle (backend h (trace s)
                                  (mkCall "getAvailableRoutines" []))))))
  /\ (callable h "getAvailableRoutines" = true ->
      forall v,
        backend h (trace s) (mkCall "getAvailableRoutines" [])
          = Returns (VPromise (Fulfilled v)) ->
        snd (Checked.getAvailableRoutines h s) = Normal (VPromise (Fulfilled v)))
  /\ (callable h "getAvailableRoutines" = false ->
      Checked.getAvailableRoutines h s
      = (s, Normal (VPromise (Rejected
              (VError (Checked.getErrorMessage "getAvailableRoutines")))))).
Proof.
  split; [apply getAvailableRoutines_present | split].
  - intros C v B. rewrite (getAvailableRoutines_present _ _ C). cbn [snd].
    now rewrite B.
  - apply getAvailableRoutines_absent.
Qed.

Lemma getAvailableRoutines_forwards_witness :
  (callable full_host "getAvailableRoutines" = true /\
   Checked.getAvailableRoutines full_host one_handle
   = (mkState [mkCall "getAvailableRoutines" []] [VNum 7],
      Normal (VPromise (Fulfilled (VObject [("routines", VStr "memory")])))))
  /\ (callable bare_host "getAvailableRoutines" = false /\
      Checked.getAvailableRoutines bare_host one_handle
      = (one_handle,
         Normal (VPromise (Rejected (VError
           "DPSL: chrome.os.diagnostics.getAvailableRoutines() is not found. Consider updating Google Chrome."))))).
Proof.
  split; (split; [reflexivity |]).
  - exact (proj1 (getAvailableRoutines_forwards full_host one_handle) eq_refl).
  - exact (proj2 (proj2 (getAvailableRoutines_forwards bare_host one_handle))
             eq_refl).
Defined.

(** ** The handle's identifier *)

(** C8.  [new Routine(id)] creates a handle whose [id] is the constructor's
    argument, and no sequence of operations performed afterwards
    ([getStatus()], [resume()] and [stop()] on this or any other handle,
    and the manager's methods as well) changes it. *)
Theorem handle_id_never_changes
    (h : host) (id : value) (s : state) (ops : list operation) :
  let handle := length (heap s) in
  let created := fst (new_Routine id s) in
  snd (new_Routine id s) = Normal (VRoutine handle)
  /\ nth_error (heap created) handle = Some id
  /\ nth_error (heap (session h ops created)) handle = Some id.
Proof.
  intros handle created.
  assert (E : nth_error (heap created) handle = Some id).
  { unfold created, handle. cbn [new_Routine fst heap].
    rewrite nth_error_app2, Nat.sub_diag; [reflexivity | lia]. }
  split; [reflexivity | split; [exact E |]].
  now apply session_keeps_cells.
Qed.

(** ** The capability probe *)

(** C9.  [isSupported(functionName)] never throws and touches nothing: in
    every state of the host it returns a value, and that value is truthy
    exactly when [chrome.os.diagnostics[functionName]] is a function.  In
    particular it is falsy when [chrome.os] is missing, when
    [chrome.os.diagnostics] is missing, when the member is missing, and
    when the member is there but is not a function. *)
Theorem isSupported_total (h : host) (functionName : string) (s : state) :
  exists answer,
    Checked.isSupported h functionName s = (s, Normal answer)
    /\ htruthy answer = callable h functionName
    /\ (assoc "os" (chrome h) = None -> htruthy answer = false)
    /\ (forall os,
          assoc "os" (chrome h) = Some (HNamespace os) ->
          assoc "diagnostics" os = None -> htruthy answer = false)
    /\ (forall os diagnostics,
          assoc "os" (chrome h) = Some (HNamespace os) ->
          assoc "diagnostics" os = Some (HNamespace diagnostics) ->
          assoc functionName diagnostics = None -> htruthy answer = false)
    /\ (forall os diagnostics member,
          assoc "os" (chrome h) = Some (HNamespace os) ->
          assoc "diagnostics" os = Some (HNamespace diagnostics) ->
          assoc functionName diagnostics = Some member ->
          member <> HFunction -> htruthy answer = false).
Proof.
  destruct (isSupported_spec h functionName s) as [answer [E T]].
  exists answer. split; [exact E | split; [exact T |]].
  rewrite T. unfold callable, chrome_os_diagnostics_at, chrome_os_diagnostics,
    chrome_os, bind. cbn [hget ret].
  repeat split.
  - intros ->. reflexivity.
  - intros os -> Ed. cbn [hget ret]. rewrite Ed. reflexivity.
  - intros os diagnostics -> Ed Em. cbn [hget ret]. rewrite Ed.
    cbn [hget ret]. rewrite Em. reflexivity.
  - intros os diagnostics member -> Ed Em N. cbn [hget ret]. rewrite Ed.
    cbn [hget ret]. rewrite Em.
    destruct member as [v | | ms]; try reflexivity. now elim N.
Qed.

Lemma isSupported_total_witness :
  assoc "os" (chrome bare_host) = None /\
  exists answer,
    Checked.isSupported bare_host "runMemoryRoutine" one_handle
    = (one_handle, Normal answer)
    /\ htruthy answer = false.
Proof.
  split; [reflexivity |].
  destruct (isSupported_total bare_host "runMemoryRoutine" one_handle)
    as [answer [E [_ [A _]]]].
  exists answer. split; [exact E | exact (A eq_refl)].
Defined.

(** ** Rejections of the host *)

(** On [full_host], [stop()] on the handle of identifier 7: the cancel call
    is rejected, the remove call is fulfilled, and so is [stop()]. *)
Lemma stop_drops_cancel_rejection :
  perform full_host (Stop 0) one_handle
  = (mkState [mkCall "getRoutineUpdate" [request (VNum 7) "cancel"];
              mkCall "getRoutineUpdate" [request (VNum 7) "remove"]]
             [VNum 7],
     Normal (VPromise (Fulfilled (VObject [("status", VStr "ready")]))))
  /\ settle (backend full_host []
               (mkCall "getRoutineUpdate" [request (VNum 7) "cancel"]))
     = Rejected (VError "cancel failed").
Proof. split; reflexivity. Qed.

(** C6, as stated, fails: the rejection of the cancel call that [stop()]
    makes does not reach the caller of [stop()]. *)
Lemma not_every_rejection_reaches_the_caller :
  ~ every_rejection_reaches_the_caller.
Proof.
  intros P.
  specialize (P full_host (Stop 0) one_handle 0
                (mkCall "getRoutineUpdate" [request (VNum 7) "cancel"])
                (VError "cancel failed") eq_refl eq_refl eq_refl).
  discriminate P.
Qed.

(** C6, amended.  Whatever the operation (a run-method,
    [getAvailableRoutines()], [getStatus()], [resume()], [stop()]), when its
    entry point is in place and the host call whose promise the operation
    hands back (for [stop()], the remove call) is rejected with [e], the
    operation's promise is rejected with [e] itself; the host has been called
    once for it (after the cancel call, for [stop()]), and the handles are
    as before. *)
Theorem returned_rejection_propagates
    (h : host) (op : operation) (s : state) (e : value) :
  callable h (required_entry op) = true ->
  settle (backend h (trace s ++ earlier_calls op s) (returned_call op s))
    = Rejected e ->
  perform h op s
  = (mkState (trace s ++ earlier_calls op s ++ [returned_call op s]) (heap s),
     Normal (VPromise (Rejected e))).
Proof.
  intros C R. destruct (forwards op) eqn:F.
  - now rewrite (perform_forwarding _ _ _ F C), R.
  - destruct op as [m params | | this | this | this]; try discriminate.
    cbn [perform required_entry earlier_calls returned_call app] in *.
    rewrite app_nil_r in R.
    rewrite (run_present _ _ _ _ C). unfold async, bind.
    rewrite hcall_function.
    destruct (backend h (trace s) _) as [v | e'].
    + destruct v; try discriminate R. cbn [settle resolve] in R. subst st.
      reflexivity.
    + cbn [settle] in R. injection R as ->. reflexivity.
Qed.

Lemma returned_rejection_propagates_witness :
  callable failing_host (required_entry (Stop 0)) = true /\
  settle (backend failing_host
            (trace one_handle ++ earlier_calls (Stop 0) one_handle)
            (returned_call (Stop 0) one_handle))
    = Rejected (VStr "backend down") /\
  perform failing_host (Stop 0) one_handle
  = (mkState [mkCall "getRoutineUpdate" [request (VNum 7) "cancel"];
              mkCall "getRoutineUpdate" [request (VNum 7) "remove"]]
             [VNum 7],
     Normal (VPromise (Rejected (VStr "backend down")))).
Proof.
  split; [reflexivity | split; [reflexivity |]].
  exact (returned_rejection_propagates failing_host (Stop 0) one_handle
           (VStr "backend down") eq_refl eq_refl).
Defined.

(** ** The two revisions *)

Lemma unchecked_forwarding (h : host) (name : string) (arguments : list value)
    (s : state) :
  callable h name = true ->
  async (p <- chrome_os_diagnostics_call h name arguments ;;
         then_ p Unchecked.wrap_response) s
  = async (p <- hcall h HFunction name arguments ;;
           then_ p Checked.wrap_response) s.
Proof.
  intros C. apply async_ext. unfold bind.
  now rewrite (call_present _ _ _ _ C).
Qed.

Lemma unchecked_absent (h : host) (name : string) (arguments : list value)
    (s : state) :
  callable h name = false ->
  async (p <- chrome_os_diagnostics_call h name arguments ;;
         then_ p Unchecked.wrap_response) s
  = (s, Normal (VPromise (Rejected VTypeError))).
Proof.
  intros C. unfold async, bind. now rewrite (call_absent _ _ _ _ C).
Qed.

(** C10.  For every operation that both revisions have (the four battery
    run-methods, the CPU cache and stress run-methods, the memory
    run-method, [getAvailableRoutines()] and the three operations of a
    handle): with the entry point in place, the two revisions end in the
    same state (the same host calls, in the same order) and return the
    same promise; with the entry point missing, neither calls the host, the
    revision without the probe rejects with the TypeError of the failed
    call, and the revision with the probe rejects with the descriptive
    error where it probes (the handle operations, which have no probe,
    behave as in the other revision). *)
Theorem revisions_agree_when_supported
    (h : host) (op : operation) (unchecked : M value) (s : state) :
  perform_unchecked h op = Some unchecked ->
  (callable h (required_entry op) = true -> perform h op s = unchecked s)
  /\ (callable h (required_entry op) = false ->
      unchecked s = (s, Normal (VPromise (Rejected VTypeError)))
      /\ perform h op s
         = (s, Normal (VPromise (Rejected
                 (if probed op
                  then VError (Checked.getErrorMessage (required_entry op))
                  else VTypeError))))).
Proof.
  intros U. split.
  - intros C.
    destruct op as [m params | | this | this | this];
      cbn [perform perform_unchecked required_entry] in *.
    + rewrite (run_present _ _ _ _ C).
      destruct m; cbn [Unchecked.run] in U; try discriminate U;
        injection U as <-; symmetry; now apply unchecked_forwarding.
    + injection U as <-. rewrite (getAvailableRoutines_present _ _ C).
      unfold Unchecked.getAvailableRoutines, async.
      rewrite (call_present _ _ _ _ C), hcall_function.
      destruct (backend h (trace s) _); reflexivity.
    + injection U as <-. reflexivity.
    + injection U as <-. reflexivity.
    + injection U as <-. reflexivity.
  - intros C. split; [| now apply perform_absent].
    destruct op as [m params | | this | this | this];
      cbn [perform_unchecked required_entry] in *.
    + destruct m; cbn [Unchecked.run] in U; try discriminate U;
        injection U as <-; now apply unchecked_absent.
    + injection U as <-. unfold Unchecked.getAvailableRoutines, async.
      now rewrite (call_absent _ _ _ _ C).
    + injection U as <-.
      exact (perform_absent h (GetStatus this) s C).
    + injection U as <-.
      exact (perform_absent h (Resume this) s C).
    + injection U as <-.
      exact (perform_absent h (Stop this) s C).
Qed.

Lemma revisions_agree_when_supported_witness :
  perform_unchecked full_host (Run CpuStress (VObject [("duration", VNum 10)]))
  = Some (Unchecked.CpuManager_runStressRoutine full_host
            (VObject [("duration", VNum 10)])) /\
  callable full_host "runCpuStressRoutine" = true /\
  perform full_host (Run CpuStress (VObject [("duration", VNum 10)])) one_handle
  = Unchecked.CpuManager_runStressRoutine full_host
      (VObject [("duration", VNum 10)]) one_handle.
Proof.
  split; [reflexivity | split; [reflexivity |]].
  exact (proj1 (revisions_agree_when_supported full_host
                  (Run CpuStress (VObject [("duration", VNum 10)])) _ one_handle
                  eq_refl) eq_refl).
Defined.

(** ** Further properties of the run-methods *)

(** The host traffic of a run-method whose entry point is in place: one
    call, whatever the host answers. *)
Lemma run_present_trace (h : host) (m : run_method) (params : value) (s : state) :
  callable h (entry_point m) = true ->
  trace (fst (Checked.run h m params s))
  = trace s ++ [mkCall (entry_point m) (run_args m params)].
Proof.
  intros C. rewrite (run_present _ _ _ _ C). unfold async, bind.
  rewrite hcall_function.
  destruct (backend h (trace s) _) as [v | e]; [| reflexivity].
  destruct v as [| | | | | | | | | | st]; try reflexivity.
  destruct st as [r | r |]; try reflexivity.
  destruct r; reflexivity.
Qed.

(** X1.  No local validation of the response: when the host fulfils a run
    call with an object that has no [id], the run-method still fulfils, with
    a handle whose [id] is [undefined]. *)
Theorem run_without_id_gives_undefined_id
    (h : host) (m : run_method) (params : value) (s : state)
    (fields : list (string * value)) :
  callable h (entry_point m) = true ->
  backend h (trace s) (mkCall (entry_point m) (run_args m params))
    = Returns (VPromise (Fulfilled (VObject fields))) ->
  assoc "id" fields = None ->
  Checked.run h m params s
  = (mkState (trace s ++ [mkCall (entry_point m) (run_args m params)])
             (heap s ++ [VUndefined]),
     Normal (VPromise (Fulfilled (VRoutine (length (heap s)))))).
Proof.
  intros C B K. rewrite (run_present _ _ _ _ C). unfold async, bind.
  rewrite hcall_function, B. simpl. rewrite K. reflexivity.
Qed.

Lemma run_without_id_gives_undefined_id_witness :
  callable (answering_host (Returns (VPromise (Fulfilled (VObject [])))))
           (entry_point Memory) = true /\
  Checked.run (answering_host (Returns (VPromise (Fulfilled (VObject [])))))
              Memory VUndefined one_handle
  = (mkState [mkCall "runMemoryRoutine" []] [VNum 7; VUndefined],
     Normal (VPromise (Fulfilled (VRoutine 1)))).
Proof.
  split; [reflexivity |].
  exact (run_without_id_gives_undefined_id
           (answering_host (Returns (VPromise (Fulfilled (VObject [])))))
           Memory VUndefined one_handle [] eq_refl eq_refl eq_refl).
Defined.

(** X2.  When the host fulfils a run call with [undefined] or [null], the
    read of [response.id] fails: the run-method rejects with a TypeError and
    no handle is created. *)
Theorem run_rejects_empty_response
    (h : host) (m : run_method) (params : value) (s : state) (response : value) :
  callable h (entry_point m) = true ->
  backend h (trace s) (mkCall (entry_point m) (run_args m params))
    = Returns (VPromise (Fulfilled response)) ->
  response = VUndefined \/ response = VNull ->
  Checked.run h m params s
  = (mkState (trace s ++ [mkCall (entry_point m) (run_args m params)]) (heap s),
     Normal (VPromise (Rejected VTypeError))).
Proof.
  intros C B R. rewrite (run_present _ _ _ _ C). unfold async, bind.
  rewrite hcall_function, B. destruct R as [-> | ->]; reflexivity.
Qed.

Lemma run_rejects_empty_response_witness :
  callable (answering_host (Returns (VPromise (Fulfilled VNull))))
           (entry_point CpuCache) = true /\
  Checked.run (answering_host (Returns (VPromise (Fulfilled VNull))))
              CpuCache (VNum 30) one_handle
  = (mkState [mkCall "runCpuCacheRoutine" [VNum 30]] [VNum 7],
     Normal (VPromise (Rejected VTypeError))).
Proof.
  split; [reflexivity |].
  exact (run_rejects_empty_response
           (answering_host (Returns (VPromise (Fulfilled VNull))))
           CpuCache (VNum 30) one_handle VNull eq_refl eq_refl
           (or_intror eq_refl)).
Defined.





(** X5.  No timeout: when the host's promise for the call an operation
    hands back never settles, the operation's promise never settles. *)
Theorem pending_host_promise_stays_pending
    (h : host) (op : operation) (s : state) :
  callable h (required_entry op) = true ->
  backend h (trace s ++ earlier_calls op s) (returned_call op s)
    = Returns (VPromise Pending) ->
  perform h op s
  = (mkState (trace s ++ earlier_calls op s ++ [returned_call op s]) (heap s),
     Normal (VPromise Pending)).
Proof.
  intros C B. destruct (forwards op) eqn:F.
  - now rewrite (perform_forwarding _ _ _ F C), B.
  - destruct op as [m params | | this | this | this]; try discriminate.
    cbn [perform required_entry earlier_calls returned_call app] in *.
    rewrite app_nil_r in B.
    rewrite (run_present _ _ _ _ C). unfold async, bind.
    now rewrite hcall_function, B.
Qed.

Lemma pending_host_promise_stays_pending_witness :
  callable (answering_host (Returns (VPromise Pending)))
           (required_entry (Run BatteryHealth VUndefined)) = true /\
  perform (answering_host (Returns (VPromise Pending)))
          (Run BatteryHealth VUndefined) one_handle
  = (mkState [mkCall "runBatteryHealthRoutine" []] [VNum 7],
     Normal (VPromise Pending)).
Proof.
  split; [reflexivity |].
  exact (pending_host_promise_stays_pending
           (answering_host (Returns (VPromise Pending)))
           (Run BatteryHealth VUndefined) one_handle eq_refl eq_refl).
Defined.

(** ** Properties of every operation *)

Lemma async_returns_promise (body : M value) (s : state) :
  exists st, snd (async body s) = Normal (VPromise st).
Proof.
  unfold async. destruct (body s) as [s' [v | e]]; eexists; reflexivity.
Qed.

(** X6.  No operation of either revision ever throws: whatever the host
    has, lacks or does (a missing [chrome.os] under an unprobed method, an
    entry point that throws), the call returns a promise, and every failure
    is a rejection of that promise. *)
Theorem operations_never_throw (h : host) (op : operation) (s : state) :
  (exists st, snd (perform h op s) = Normal (VPromise st))
  /\ (forall unchecked,
        perform_unchecked h op = Some unchecked ->
        exists st, snd (unchecked s) = Normal (VPromise st)).
Proof.
  split.
  - destruct op as [m params | | this | this | this];
      [destruct m | | | |]; apply async_returns_promise.
  - intros unchecked U.
    destruct op as [m params | | this | this | this];
      [destruct m; try discriminate U | | | |];
      injection U as <-; apply async_returns_promise.
Qed.

Lemma operations_never_throw_witness :
  perform_unchecked bare_host (Stop 0) = Some (Unchecked.stop bare_host 0) /\
  exists st, snd (Unchecked.stop bare_host 0 one_handle) = Normal (VPromise st).
Proof.
  split; [reflexivity |].
  exact (proj2 (operations_never_throw bare_host (Stop 0) one_handle)
           (Unchecked.stop bare_host 0) eq_refl).
Defined.

(** X7.  The calls an operation makes into the host depend on nothing but
    the presence of its entry point: with the entry point in place it makes
    the calls of its own entry point (one, or cancel then remove for
    [stop()]) whatever the host answers, and without it it makes none.  In
    particular no operation calls another entry point or repeats a call. *)
Theorem host_calls_of_an_operation (h : host) (op : operation) (s : state) :
  trace (fst (perform h op s))
  = trace s ++ (if callable h (required_entry op)
                then earlier_calls op s ++ [returned_call op s]
                else []).
Proof.
  destruct (callable h (required_entry op)) eqn:C.
  - destruct (forwards op) eqn:F.
    + now rewrite (perform_forwarding _ _ _ F C).
    + destruct op as [m params | | this | this | this]; try discriminate.
      cbn [perform required_entry earlier_calls returned_call app] in *.
      now apply run_present_trace.
  - rewrite (perform_absent _ _ _ C). cbn [fst]. now rewrite app_nil_r.
Qed.

Lemma no_os_not_callable (h : host) (name : string) :
  assoc "os" (chrome h) = None -> callable h name = false.
Proof.
  intros E. unfold callable, chrome_os_diagnostics_at, chrome_os_diagnostics,
    chrome_os, bind. cbn [hget ret]. rewrite E. reflexivity.
Qed.

(** X8.  On a host without [chrome.os], no sequence of operations reaches
    the host or creates a handle: the state after the session is the state
    before it. *)
Theorem nothing_happens_without_chrome_os
    (h : host) (ops : list operation) (s : state) :
  assoc "os" (chrome h) = None ->
  session h ops s = s.
Proof.
  intros E. induction ops as [| op ops IH]; cbn [session]; [reflexivity |].
  rewrite (perform_absent _ _ _ (no_os_not_callable h _ E)). exact IH.
Qed.

Lemma nothing_happens_without_chrome_os_witness :
  assoc "os" (chrome bare_host) = None /\
  session bare_host [Run Memory VUndefined; GetAvailableRoutines; Stop 0]
          one_handle
  = one_handle.
Proof.
  split; [reflexivity |].
  exact (nothing_happens_without_chrome_os bare_host
           [Run Memory VUndefined; GetAvailableRoutines; Stop 0] one_handle
           eq_refl).
Defined.

(** ** Handles in use *)

Lemma nth_error_last {A : Type} (l : list A) (x : A) :
  nth_error (l ++ [x]) (length l) = Some x.
Proof. rewrite nth_error_app2, Nat.sub_diag; [reflexivity | lia]. Qed.

(** X9.  The handle a run-method returns carries the identifier the host
    gave: when the host fulfils the run call with an object whose [id] is
    [k], the handle's [getStatus()], [resume()] and [stop()] send requests
    with [id: k] right after the run call. *)
Theorem returned_handle_sends_backend_id
    (h : host) (m : run_method) (params : value) (s : state)
    (fields : list (string * value)) (k : value) :
  callable h (entry_point m) = true ->
  callable h "getRoutineUpdate" = true ->
  backend h (trace s) (mkCall (entry_point m) (run_args m params))
    = Returns (VPromise (Fulfilled (VObject fields))) ->
  assoc "id" fields = Some k ->
  let started := mkCall (entry_point m) (run_args m params) in
  let handle := length (heap s) in
  let after := fst (Checked.run h m params s) in
  trace (fst (Checked.getStatus h handle after))
  = trace s ++ [started; mkCall "getRoutineUpdate" [request k "status"]]
  /\ trace (fst (Checked.resume h handle after))
     = trace s ++ [started; mkCall "getRoutineUpdate" [request k "resume"]]
  /\ trace (fst (Checked.stop h handle after))
     = trace s ++ [started; mkCall "getRoutineUpdate" [request k "cancel"];
                   mkCall "getRoutineUpdate" [request k "remove"]].
Proof.
  intros C G B K started handle after.
  assert (E : after = mkState (trace s ++ [started]) (heap s ++ [k])).
  { unfold after. rewrite (run_present _ _ _ _ C). unfold async, bind.
    rewrite hcall_function, B. simpl. rewrite K. reflexivity. }
  assert (N : nth handle (heap s ++ [k]) VUndefined = k).
  { apply nth_error_nth. apply nth_error_last. }
  rewrite E. repeat split.
  - change (Checked.getStatus h handle) with (perform h (GetStatus handle)).
    rewrite (perform_forwarding h (GetStatus handle) _ eq_refl G).
    cbn [fst trace heap earlier_calls returned_call app].
    now rewrite N, <- app_assoc.
  - change (Checked.resume h handle) with (perform h (Resume handle)).
    rewrite (perform_forwarding h (Resume handle) _ eq_refl G).
    cbn [fst trace heap earlier_calls returned_call app].
    now rewrite N, <- app_assoc.
  - change (Checked.stop h handle) with (perform h (Stop handle)).
    rewrite (perform_forwarding h (Stop handle) _ eq_refl G).
    cbn [fst trace heap earlier_calls returned_call app].
    now rewrite N, <- app_assoc.
Qed.

Lemma returned_handle_sends_backend_id_witness :
  callable full_host (entry_point NvmeWearLevel) = true /\
  callable full_host "getRoutineUpdate" = true /\
  trace (fst (Checked.stop full_host 0
                (fst (Checked.run full_host NvmeWearLevel (VNum 50)
                        (mkState [] [])))))
  = [mkCall "runNvmeWearLevelRoutine" [VNum 50];
     mkCall "getRoutineUpdate" [request (VNum 42) "cancel"];
     mkCall "getRoutineUpdate" [request (VNum 42) "remove"]].
Proof.
  split; [reflexivity | split; [reflexivity |]].
  exact (proj2 (proj2 (returned_handle_sends_backend_id full_host NvmeWearLevel
                         (VNum 50) (mkState [] []) [("id", VNum 42)] (VNum 42)
                         eq_refl eq_refl eq_refl eq_refl))).
Defined.

(** X10.  A handle is never invalidated locally: after any sequence of
    operations, [stop()] on the same handle included, [getStatus()] on a
    handle of identifier [k] still sends [{id: k, command: "status"}] to the
    host and hands back the host's answer. *)
Theorem handle_usable_after_any_session
    (h : host) (ops : list operation) (s : state) (this : nat) (k : value) :
  callable h "getRoutineUpdate" = true ->
  nth_error (heap s) this = Some k ->
  let later := session h ops s in
  let status := mkCall "getRoutineUpdate" [request k "status"] in
  Checked.getStatus h this later
  = (mkState (trace later ++ [status]) (heap later),
     Normal (VPromise (settle (backend h (trace later) status)))).
Proof.
  intros G K later status.
  pose proof (session_keeps_cells h ops s this k K) as K'.
  fold later in K'.
  change (Checked.getStatus h this) with (perform h (GetStatus this)).
  rewrite (perform_forwarding h (GetStatus this) later eq_refl G).
  cbn [earlier_calls returned_call app].
  rewrite app_nil_r, (handle_id _ _ _ K'). reflexivity.
Qed.

Lemma handle_usable_after_any_session_witness :
  callable full_host "getRoutineUpdate" = true /\
  nth_error (heap one_handle) 0 = Some (VNum 7) /\
  Checked.getStatus full_host 0 (session full_host [Stop 0] one_handle)
  = (mkState [mkCall "getRoutineUpdate" [request (VNum 7) "cancel"];
              mkCall "getRoutineUpdate" [request (VNum 7) "remove"];
              mkCall "getRoutineUpdate" [request (VNum 7) "status"]]
             [VNum 7],
     Normal (VPromise (Fulfilled (VObject [("status", VStr "ready")])))).
Proof.
  split; [reflexivity | split; [reflexivity |]].
  exact (handle_usable_after_any_session full_host [Stop 0] one_handle 0
           (VNum 7) eq_refl eq_refl).
Defined.

(** X11.  Every successful run creates an object of its own: two
    run-methods called one after the other return two different handles,
    each with the identifier of its own response, even when the host gave
    the same identifier twice. *)
Theorem successive_runs_give_distinct_handles
    (h : host) (m1 m2 : run_method) (p1 p2 : value) (s : state)
    (fields1 fields2 : list (string * value)) (k1 k2 : value) :
  callable h (entry_point m1) = true ->
  callable h (entry_point m2) = true ->
  backend h (trace s) (mkCall (entry_point m1) (run_args m1 p1))
    = Returns (VPromise (Fulfilled (VObject fields1))) ->
  backend h (trace s ++ [mkCall (entry_point m1) (run_args m1 p1)])
            (mkCall (entry_point m2) (run_args m2 p2))
    = Returns (VPromise (Fulfilled (VObject fields2))) ->
  assoc "id" fields1 = Some k1 ->
  assoc "id" fields2 = Some k2 ->
  let first := Checked.run h m1 p1 s in
  let second := Checked.run h m2 p2 (fst first) in
  exists a1 a2,
    snd first = Normal (VPromise (Fulfilled (VRoutine a1)))
    /\ snd second = Normal (VPromise (Fulfilled (VRoutine a2)))
    /\ a1 <> a2
    /\ nth_error (heap (fst second)) a1 = Some k1
    /\ nth_error (heap (fst second)) a2 = Some k2.
Proof.
  intros C1 C2 B1 B2 K1 K2 first second.
  assert (E1 : first
    = (mkState (trace s ++ [mkCall (entry_point m1) (run_args m1 p1)])
               (heap s ++ [k1]),
       Normal (VPromise (Fulfilled (VRoutine (length (heap s))))))).
  { unfold first. rewrite (run_present _ _ _ _ C1). unfold async, bind.
    rewrite hcall_function, B1. simpl. rewrite K1. reflexivity. }
  assert (E2 : second
    = (mkState ((trace s ++ [mkCall (entry_point m1) (run_args m1 p1)])
                ++ [mkCall (entry_point m2) (run_args m2 p2)])
               ((heap s ++ [k1]) ++ [k2]),
       Normal (VPromise (Fulfilled (VRoutine (length (heap s ++ [k1]))))))).
  { unfold second. rewrite E1. cbn [fst].
    rewrite (run_present _ _ _ _ C2). unfold async, bind.
    rewrite hcall_function. cbn [trace heap]. rewrite B2. simpl.
    rewrite K2. reflexivity. }
  exists (length (heap s)), (length (heap s ++ [k1])).
  rewrite E1, E2. cbn [fst snd heap].
  repeat split.
  - rewrite length_app. cbn [length]. lia.
  - rewrite nth_error_app1; [apply nth_error_last |].
    rewrite length_app. cbn [length]. lia.
  - apply nth_error_last.
Qed.

Lemma successive_runs_give_distinct_handles_witness :
  exists a1 a2,
    snd (Checked.run full_host Memory VUndefined (mkState [] []))
    = Normal (VPromise (Fulfilled (VRoutine a1)))
    /\ snd (Checked.run full_host Memory VUndefined
              (fst (Checked.run full_host Memory VUndefined (mkState [] []))))
       = Normal (VPromise (Fulfilled (VRoutine a2)))
    /\ a1 <> a2
    /\ nth_error (heap (fst (Checked.run full_host Memory VUndefined
              (fst (Checked.run full_host Memory VUndefined (mkState [] []))))))
         a1 = Some (VNum 42)
    /\ nth_error (heap (fst (Checked.run full_host Memory VUndefined
              (fst (Checked.run full_host Memory VUndefined (mkState [] []))))))
         a2 = Some (VNum 42).
Proof.
  exact (successive_runs_give_distinct_handles full_host Memory Memory
           VUndefined VUndefined (mkState [] [])
           [("id", VNum 42)] [("id", VNum 42)] (VNum 42) (VNum 42)
           eq_refl eq_refl eq_refl eq_refl eq_refl eq_refl).
Defined.

(** ** The error message and the probe's answers *)

Lemma length_append (a b : string) :
  String.length (a ++ b) = String.length a + String.length b.
Proof. induction a as [| x a IH]; simpl; [reflexivity | now rewrite IH]. Qed.

Lemma append_cancel_r (a b c : string) : (a ++ c = b ++ c)%string -> a = b.
Proof.
  revert b. induction a as [| x a IH]; intros [| y b] E.
  - reflexivity.
  - apply (f_equal String.length) in E. simpl in E.
    rewrite length_append in E. lia.
  - apply (f_equal String.length) in E. simpl in E.
    rewrite length_append in E. lia.
  - simpl in E. injection E as -> E. f_equal. now apply IH.
Qed.

(** X12.  The unsupported-capability message identifies the entry point:
    two names give the same message only when they are the same name, and
    two run-methods reject with the same message only when they are the
    same method. *)
Theorem getErrorMessage_identifies_entry_point :
  (forall f g : string,
     Checked.getErrorMessage f = Checked.getErrorMessage g -> f = g)
  /\ (forall m1 m2 : run_method,
        Checked.getErrorMessage (entry_point m1)
        = Checked.getErrorMessage (entry_point m2) -> m1 = m2).
Proof.
  assert (I : forall f g : string,
            Checked.getErrorMessage f = Checked.getErrorMessage g -> f = g).
  { intros f g E. unfold Checked.getErrorMessage in E.
    cbn [append] in E. injection E as E.
    now apply append_cancel_r in E. }
  split; [exact I |].
  intros m1 m2 E. apply I in E.
  destruct m1, m2; solve [reflexivity | discriminate E].
Qed.

Lemma getErrorMessage_identifies_entry_point_witness :
  Checked.getErrorMessage "runMemoryRoutine"
  = Checked.getErrorMessage (entry_point Memory) /\
  "runMemoryRoutine" = entry_point Memory.
Proof.
  split; [reflexivity |].
  exact (proj1 getErrorMessage_identifies_entry_point
           "runMemoryRoutine" (entry_point Memory) eq_refl).
Defined.

(** A function under [chrome.os.diagnostics] sits in a namespace in a
    namespace: data never holds one. *)
Lemma callable_namespaces (h : host) (name : string) :
  callable h name = true ->
  exists os diagnostics,
    assoc "os" (chrome h) = Some (HNamespace os)
    /\ assoc "diagnostics" os = Some (HNamespace diagnostics)
    /\ assoc name diagnostics = Some HFunction.
Proof.
  unfold callable, chrome_os_diagnostics_at, chrome_os_diagnostics,
    chrome_os, bind. cbn [hget ret].
  destruct (assoc "os" (chrome h)) as [[v | | os] |]; try discriminate.
  - destruct v; try discriminate.
    cbn [hget ret].
    destruct (assoc "diagnostics" fields) as [d |]; [| discriminate].
    destruct d; discriminate.
  - cbn [hget ret].
    destruct (assoc "diagnostics" os) as [[v | | d] |] eqn:Ed;
      try discriminate.
    + destruct v; discriminate.
    + cbn [hget ret].
      destruct (assoc name d) as [[v | | ms] |] eqn:E; try discriminate.
      intros _. exists os, d. auto.
Qed.

(** X13.  What [isSupported(functionName)] answers.  With a function under
    the name the answer is [true].  Otherwise the answer is the first falsy
    operand of the conjunction, not always a boolean: [undefined] when
    [chrome.os] or the member is missing, the member itself when it is falsy
    data; it is [false] when the member is truthy data. *)
Theorem isSupported_answers (h : host) (functionName : string) (s : state) :
  (callable h functionName = true ->
   Checked.isSupported h functionName s = (s, Normal (HData (VBool true))))
  /\ (assoc "os" (chrome h) = None ->
      Checked.isSupported h functionName s = (s, Normal (HData VUndefined)))
  /\ (forall os diagnostics,
        assoc "os" (chrome h) = Some (HNamespace os) ->
        assoc "diagnostics" os = Some (HNamespace diagnostics) ->
        assoc functionName diagnostics = None ->
        Checked.isSupported h functionName s = (s, Normal (HData VUndefined)))
  /\ (forall os diagnostics v,
        assoc "os" (chrome h) = Some (HNamespace os) ->
        assoc "diagnostics" os = Some (HNamespace diagnostics) ->
        assoc functionName diagnostics = Some (HData v) ->
        Checked.isSupported h functionName s
        = (s, Normal (HData (if truthy v then VBool false else v)))).
Proof.
  unfold Checked.isSupported, and_, chrome_os_diagnostics_at,
    chrome_os_diagnostics, chrome_os, bind. cbn [hget ret].
  repeat split.
  - intros C. destruct (callable_namespaces h functionName C)
      as [os [d [-> [Ed Em]]]].
    cbn [hget ret htruthy]. rewrite Ed. cbn [hget ret htruthy]. rewrite Em.
    reflexivity.
  - intros ->. reflexivity.
  - intros os d -> Ed Em.
    cbn [hget ret htruthy]. rewrite Ed. cbn [hget ret htruthy]. rewrite Em.
    reflexivity.
  - intros os d v -> Ed Em.
    cbn [hget ret htruthy]. rewrite Ed. cbn [hget ret htruthy]. rewrite Em.
    cbn [htruthy]. destruct (truthy v) eqn:T; [| reflexivity].
    cbn [htypeof]. destruct v; try discriminate T; reflexivity.
Qed.

Lemma isSupported_answers_witness :
  (callable full_host "runDiskReadRoutine" = true /\
   Checked.isSupported full_host "runDiskReadRoutine" one_handle
   = (one_handle, Normal (HData (VBool true))))
  /\ (assoc "os" (chrome bare_host) = None /\
      Checked.isSupported bare_host "runDiskReadRoutine" one_handle
      = (one_handle, Normal (HData VUndefined))).
Proof.
  split; (split; [reflexivity |]).
  - exact (proj1 (isSupported_answers full_host "runDiskReadRoutine" one_handle)
             eq_refl).
  - exact (proj1 (proj2 (isSupported_answers bare_host "runDiskReadRoutine"
                           one_handle)) eq_refl).
Defined.
